(** * Rumi-Analytica front-end: session provider, chat transport and chat page

    A shallow embedding of the TypeScript sources that carry a contract:

    - [lib/api] ([sendChatMessage]), the chat transport;
    - [contexts/AuthContext] ([AuthProvider]: rehydration effect, [login],
      [logout], [isAuthenticated]);
    - [components/ChatInput] ([handleSubmit]);
    - [pages/Index] ([handleSendMessage] and the [isLoading] flag).

    JavaScript strings are [string]s whose characters stand for code units
    below 256; [localStorage] is a finite map from keys to values, whose
    writes always succeed (a write refused by the browser, as on an
    exhausted quota, is outside this model); the network is a log of the
    requests handed to [fetch], answered by a backend given as a function.
    The reply of the chat endpoint has the declared shape [ChatResponse];
    the body of the token endpoint is untyped in the source, and its
    [access_token] may be a string, [null] or missing.  Asynchronous
    functions are
    computations in a state-and-exception monad over the browser state.
    [sendChatMessage] and [login] touch no state before their [await]
    beyond issuing the request, so each is one computation; the page's
    [handleSendMessage] sets state on both sides of its [await] and is
    split there. *)

From Stdlib Require Import String Ascii NArith List Bool Lia.
From stdpp Require Import base tactics option list strings gmap pretty.

Local Open Scope string_scope.
Local Open Scope N_scope.

(** ** JavaScript values *)

Module Js.

(** [ToBoolean] on a string: only the empty string is falsy. *)
Definition truthy (s : string) : bool :=
  match s with
  | EmptyString => false
  | String _ _ => true
  end.

(** [ToBoolean] on a [string | null]: [null] is falsy as well. *)
Definition truthy_opt (v : option string) : bool :=
  match v with
  | None => false
  | Some s => truthy s
  end.

(** [a || b] on a possibly undefined string and a string default. *)
Definition or_else (a : option string) (b : string) : string :=
  match a with
  | Some s => if truthy s then s else b
  | None => b
  end.

(** WhiteSpace and LineTerminator code units (ECMA-262, 12.2 and 12.3)
    among the code units below 256: TAB, LF, VT, FF, CR, SP, NBSP. *)
Definition is_white_space (c : ascii) : bool :=
  let n := N_of_ascii c in
  (n =? 9) || (n =? 10) || (n =? 11) || (n =? 12) || (n =? 13)
  || (n =? 32) || (n =? 160).

(** [String.prototype.trimStart] *)
Fixpoint trimStart (s : string) : string :=
  match s with
  | EmptyString => EmptyString
  | String c r => if is_white_space c then trimStart r else s
  end.

(** [String.prototype.trimEnd] *)
Fixpoint trimEnd (s : string) : string :=
  match s with
  | EmptyString => EmptyString
  | String c r =>
      let r' := trimEnd r in
      if is_white_space c && negb (truthy r') then EmptyString
      else String c r'
  end.

(** [String.prototype.trim] *)
Definition trim (s : string) : string := trimEnd (trimStart s).

(** A string made of white space only (the empty string included). *)
Fixpoint whitespace_only (s : string) : bool :=
  match s with
  | EmptyString => true
  | String c r => is_white_space c && whitespace_only r
  end.

(** Template-literal conversion of a number: its decimal digits. *)
Definition toString (n : N) : string := pretty n.

(** Exceptions: [new Error(message)], and the two built-in ones the
    platform raises here ([fetch] rejects with a [TypeError] when the
    network fails, [response.json()] with a [SyntaxError]). *)
Inductive Exn : Type :=
| Error (message : string)
| TypeError (message : string)
| SyntaxError (message : string).

(** How a promise settles. *)
Inductive Outcome (A : Type) : Type :=
| Fulfilled (value : A)
| Rejected (reason : Exn).
Arguments Fulfilled {A} value.
Arguments Rejected {A} reason.

(** What a field read off the untyped value of [response.json()] can be:
    a string, [null], or [undefined] when the body has no such field.
    (Numbers, booleans, arrays and objects, which a state cell of type
    [string | null] is not meant to hold, are left out.)  A string is read
    as the field holding it. *)
Inductive Field : Type :=
| Str (s : string)
| Null
| Undefined.
Coercion Str : string >-> Field.

End Js.
Export Js.

(** ** The browser: React state of the provider, local storage, network *)

Module Browser.

(** The body handed to [fetch]: [JSON.stringify] of an object with string
    fields, or a [URLSearchParams] with its appended pairs, in order. *)
Inductive Body : Type :=
| JSON_stringify (object : list (string * string))
| URLSearchParams (fields : list (string * string)).

(** The second argument of [fetch]. *)
Record RequestInit : Type := {
  method : string;
  headers : list (string * string);
  body : Body
}.

(** A request as it reaches the network. *)
Record Request : Type := {
  url : string;
  init : RequestInit
}.

(** A response: its status and its body parsed as JSON of the shape the
    caller reads ([None] when the body is not such JSON). *)
Record Response (J : Type) : Type := {
  status : N;
  parsed : option J
}.
Arguments status {J} _.
Arguments parsed {J} _.

(** [response.ok]: the status is in the range 200-299. *)
Definition ok {J} (r : Response J) : bool :=
  (200 <=? status r) && (status r <=? 299).

(** What the network does with a request: a response, or no response at
    all (unreachable host). *)
Inductive FetchResult (J : Type) : Type :=
| Responds (r : Response J)
| Unreachable.
Arguments Responds {J} r.
Arguments Unreachable {J}.

(** The part of the browser the program reads and writes.  [token] and
    [username] are the two [useState] cells of [AuthProvider];
    [requests] logs every request issued, oldest first. *)
Record World : Type := {
  token : option string;
  username : option string;
  localStorage : gmap string string;
  requests : list Request
}.

(** Computations: they change the world and settle like a promise. *)
Definition Eff (A : Type) : Type := World -> World * Outcome A.

Definition ret {A} (a : A) : Eff A := fun w => (w, Fulfilled a).

Definition throw {A} (e : Exn) : Eff A := fun w => (w, Rejected e).

Definition bind {A B} (m : Eff A) (k : A -> Eff B) : Eff B :=
  fun w =>
    match m w with
    | (w', Fulfilled a) => k a w'
    | (w', Rejected e) => (w', Rejected e)
    end.

(** The world a computation leaves, and how it settles. *)
Definition exec {A} (m : Eff A) (w : World) : World := fst (m w).
Definition settles {A} (m : Eff A) (w : World) : Outcome A := snd (m w).

(** [localStorage.getItem]: [null] for a key that is not stored. *)
Definition getItem (key : string) : Eff (option string) :=
  fun w => (w, Fulfilled (localStorage w !! key)).

(** [localStorage.setItem].  The write is taken to succeed: storage that
    refuses it (and throws) is not modelled. *)
Definition setItem (key value : string) : Eff unit :=
  fun w =>
    ({| token := token w; username := username w;
        localStorage := <[key := value]> (localStorage w);
        requests := requests w |}, Fulfilled tt).

(** [localStorage.removeItem] *)
Definition removeItem (key : string) : Eff unit :=
  fun w =>
    ({| token := token w; username := username w;
        localStorage := delete key (localStorage w);
        requests := requests w |}, Fulfilled tt).

(** The two state setters of [AuthProvider]. *)
Definition setToken (v : option string) : Eff unit :=
  fun w =>
    ({| token := v; username := username w;
        localStorage := localStorage w;
        requests := requests w |}, Fulfilled tt).

Definition setUsername (v : option string) : Eff unit :=
  fun w =>
    ({| token := token w; username := v;
        localStorage := localStorage w;
        requests := requests w |}, Fulfilled tt).

(** [fetch(input, init)]: the request is issued (logged), then the
    promise settles with the backend's response or rejects. *)
Definition fetch {J} (backend : Request -> FetchResult J)
    (input : string) (i : RequestInit) : Eff (Response J) :=
  fun w =>
    let req := {| url := input; init := i |} in
    let w' := {| token := token w; username := username w;
                 localStorage := localStorage w;
                 requests := requests w ++ [req] |} in
    match backend req with
    | Responds r => (w', Fulfilled r)
    | Unreachable => (w', Rejected (TypeError "Failed to fetch"))
    end.

(** [response.json()] *)
Definition json {J} (r : Response J) : Eff J :=
  match parsed r with
  | Some data => ret data
  | None => throw (SyntaxError "Unexpected token in JSON")
  end.

(** A [string | null] inside a template literal. *)
Definition template (v : option string) : string := default "null" v.

End Browser.
Export Browser.

Declare Scope eff_scope.
Delimit Scope eff_scope with eff.
Notation "'let*' x := m 'in' k" := (bind m (fun x => k))
  (at level 10, x name, m at level 100, k at level 200) : eff_scope.
Notation "m ;; k" := (bind m (fun _ => k))
  (at level 100, k at level 200, right associativity) : eff_scope.
Local Open Scope eff_scope.

(** ** lib/api: the chat transport *)

Module Api.

(** The two interfaces the module declares. *)
Record ChatRequest : Type := { message : string }.

Record ChatResponse : Type := { response : string }.

Section Transport.
(** The build-time variable and the backend behind it. *)
Variable VITE_BACKEND_URL : option string.
Variable backend : Request -> FetchResult ChatResponse.

Definition BACKEND_URL : string :=
  or_else VITE_BACKEND_URL "http://localhost:8000".

Definition sendChatMessage (message : string) : Eff ChatResponse :=
  let* token := getItem "access_token" in
  if negb (truthy_opt token) then
    throw (Error "Not authenticated")
  else
    let* response := fetch backend (BACKEND_URL +:+ "/api/chat")
      {| method := "POST";
         headers := [("Content-Type", "application/json");
                     ("Authorization", "Bearer " +:+ template token)];
         body := JSON_stringify [("message", message)] |} in
    if negb (ok response) then
      if status response =? 401 then
        throw (Error "Session expired. Please login again.")
      else
        throw (Error ("Backend error: " +:+ toString (status response)))
    else
      json response.
End Transport.

(** The request [sendChatMessage] hands to [fetch] for a stored token. *)
Definition chat_request (VITE_BACKEND_URL : option string)
    (token message : string) : Request :=
  {| url := BACKEND_URL VITE_BACKEND_URL +:+ "/api/chat";
     init := {| method := "POST";
                headers := [("Content-Type", "application/json");
                            ("Authorization", "Bearer " +:+ token)];
                body := JSON_stringify [("message", message)] |} |}.

End Api.

(** ** contexts/AuthContext: the session provider *)

Module AuthContext.

(** What the state cell holds after [setToken(v)]: the string, or nothing
    ([null] and [undefined] are both falsy and both no token). *)
Definition held (v : Field) : option string :=
  match v with
  | Str s => Some s
  | Null => None
  | Undefined => None
  end.

(** [ToString], which [localStorage.setItem] applies to its value. *)
Definition ToString (v : Field) : string :=
  match v with
  | Str s => s
  | Null => "null"
  | Undefined => "undefined"
  end.

(** The body of the token endpoint, as [login] reads it. *)
Record TokenResponse : Type := { access_token : Field }.

(** The effect run once after mount. *)
Definition rehydrate : Eff unit :=
  let* storedToken := getItem "access_token" in
  let* storedUsername := getItem "username" in
  if truthy_opt storedToken && truthy_opt storedUsername then
    setToken storedToken ;;
    setUsername storedUsername
  else
    ret tt.

Section Provider.
Variable VITE_BACKEND_URL : option string.

Definition BACKEND_URL : string :=
  or_else VITE_BACKEND_URL "http://localhost:8000".

Definition login (backend : Request -> FetchResult TokenResponse)
    (username password : string) : Eff unit :=
  let formData := [("username", username); ("password", password)] in
  let* response := fetch backend (BACKEND_URL +:+ "/token")
    {| method := "POST";
       headers := [("Content-Type", "application/x-www-form-urlencoded")];
       body := URLSearchParams formData |} in
  if negb (ok response) then
    throw (Error "Invalid username or password")
  else
    let* data := json response in
    setToken (held (access_token data)) ;;
    setUsername (Some username) ;;
    setItem "access_token" (ToString (access_token data)) ;;
    setItem "username" username.

Definition logout : Eff unit :=
  setToken None ;;
  setUsername None ;;
  removeItem "access_token" ;;
  removeItem "username".

(** The invariant of the Session data model: token and identity are
    both present or both absent. *)
Definition both_or_neither (w : World) : Prop :=
  (is_Some (token w) /\ is_Some (username w))
  \/ (token w = None /\ username w = None).

(** [isAuthenticated: !!token] *)
Definition isAuthenticated (w : World) : bool := truthy_opt (token w).

(** The provider as a transition system.  Both state cells start at
    [null], whatever the storage holds; then the effect, [login] (with
    whatever the backend answers) and [logout] run in any order.  The
    part of [login] before its [await] only issues the request, so the
    call is one transition. *)
Definition mounted (w : World) : Prop :=
  token w = None /\ username w = None.

Inductive step : World -> World -> Prop :=
| step_rehydrate w :
    step w (exec rehydrate w)
| step_login backend username password w :
    step w (exec (login backend username password) w)
| step_logout w :
    step w (exec logout w).

Inductive reachable : World -> Prop :=
| reachable_mounted w : mounted w -> reachable w
| reachable_step w w' : reachable w -> step w w' -> reachable w'.

(** The same transition system with every call of [login] held to a
    condition [P] on the backend it meets and the username it is given. *)
Inductive reachable_when
    (P : (Request -> FetchResult TokenResponse) -> string -> Prop)
    : World -> Prop :=
| when_mounted w :
    mounted w -> reachable_when P w
| when_rehydrate w :
    reachable_when P w -> reachable_when P (exec rehydrate w)
| when_login backend username password w :
    P backend username ->
    reachable_when P w ->
    reachable_when P (exec (login backend username password) w)
| when_logout w :
    reachable_when P w -> reachable_when P (exec logout w).
End Provider.

(** The token endpoint keeps to its interface: a body that comes with a
    status in 200-299 carries a string [access_token]. *)
Definition grants_strings (backend : Request -> FetchResult TokenResponse)
    (username : string) : Prop :=
  forall req r data,
    backend req = Responds r -> ok r = true -> parsed r = Some data ->
    exists t, access_token data = Str t.

(** Moreover the token granted and the username submitted are not the
    empty string. *)
Definition grants_sessions (backend : Request -> FetchResult TokenResponse)
    (username : string) : Prop :=
  truthy username = true
  /\ forall req r data,
       backend req = Responds r -> ok r = true -> parsed r = Some data ->
       exists t, access_token data = Str t /\ truthy t = true.

(** Logged in with a non-empty token and a non-empty identity, or logged
    out with both cells [null]. *)
Definition in_or_out (w : World) : Prop :=
  (token w = None /\ username w = None)
  \/ (truthy_opt (token w) = true /\ truthy_opt (username w) = true).

(** The request [login] hands to [fetch]. *)
Definition token_request (VITE_BACKEND_URL : option string)
    (username password : string) : Request :=
  {| url := BACKEND_URL VITE_BACKEND_URL +:+ "/token";
     init := {| method := "POST";
                headers := [("Content-Type",
                             "application/x-www-form-urlencoded")];
                body := URLSearchParams [("username", username);
                                         ("password", password)] |} |}.

(** A page reload: the provider mounts anew, both cells [null], over the
    storage (and the request log) left behind. *)
Definition remount (w : World) : World :=
  {| token := None; username := None;
     localStorage := localStorage w;
     requests := requests w |}.

(** The session in memory, where there is one, is the one in storage. *)
Definition mirrors_storage (w : World) : Prop :=
  (forall t, token w = Some t -> localStorage w !! "access_token" = Some t)
  /\ (forall u, username w = Some u -> localStorage w !! "username" = Some u).

End AuthContext.

(** ** components/ChatInput *)

Module ChatInput.

(** The optional prop [disabled?: boolean] in a condition: [undefined]
    is falsy. *)
Definition truthy_flag (v : option bool) : bool := default false v.

(** [handleSubmit], for the draft [message] held by the component, the
    [disabled] prop and the [onSend] prop, a callback acting on the state
    [S] of its owner.  The result is the new draft and the owner's state. *)
Definition handleSubmit {S : Type} (onSend : string -> S -> S)
    (disabled : option bool) (message : string) (s : S) : string * S :=
  if truthy (trim message) && negb (truthy_flag disabled) then
    ("", onSend (trim message) s)
  else
    (message, s).

(** The part of a [React.KeyboardEvent] the component reads. *)
Record KeyboardEvent : Type := {
  key : string;
  shiftKey : bool
}.

(** [handleKeyDown].  The flag in front tells whether [preventDefault] was
    called on the event, that is, whether the key's own effect on the text
    area (a line break for Enter) is suppressed. *)
Definition handleKeyDown {S : Type} (onSend : string -> S -> S)
    (disabled : option bool) (e : KeyboardEvent) (message : string) (s : S)
    : bool * (string * S) :=
  if String.eqb (key e) "Enter" && negb (shiftKey e) then
    (true, handleSubmit onSend disabled message s)
  else
    (false, (message, s)).

(** The [disabled] attribute of the submit button:
    [!message.trim() || disabled]. *)
Definition submit_disabled (message : string) (disabled : option bool)
    : bool :=
  negb (truthy (trim message)) || truthy_flag disabled.

End ChatInput.

(** ** pages/Index: the chat page *)

Module Index.

Inductive Role : Type := user | assistant.

Record Message : Type := {
  role : Role;
  content : string
}.

Record Toast : Type := {
  title : string;
  description : string;
  variant : string
}.

(** The state cells of the page ([messages], [isLoading]), the toasts
    shown, and the calls of [handleSendMessage] suspended at their
    [await]. *)
Record Page : Type := {
  messages : list Message;
  isLoading : bool;
  toasts : list Toast;
  in_flight : nat
}.

Definition placeholder : string :=
  "I'm ready to help you analyze your Google Analytics data! However, the backend integration is not yet configured. Please connect the FastAPI backend or set up Lovable Cloud Edge Functions to enable full functionality.".

(** How the awaited promise settles. *)
Inductive Settled : Type := Resolves | Rejects.

(** [handleSendMessage] up to its [await]. *)
Definition handleSendMessage (content : string) (p : Page) : Page :=
  let userMessage := {| role := user; content := content |} in
  {| messages := messages p ++ [userMessage];
     isLoading := true;
     toasts := toasts p;
     in_flight := S (in_flight p) |}.

(** [handleSendMessage] from its [await] on: the rest of the [try]
    block, or the [catch] block, and then the [finally] block. *)
Definition handleSendMessage_resume (r : Settled) (p : Page) : Page :=
  let assistantMessage := {| role := assistant; content := placeholder |} in
  match r with
  | Resolves =>
      {| messages := messages p ++ [assistantMessage];
         isLoading := false;
         toasts := toasts p;
         in_flight := pred (in_flight p) |}
  | Rejects =>
      {| messages := messages p;
         isLoading := false;
         toasts := toasts p ++
           [{| title := "Error";
               description := "Failed to send message. Please try again.";
               variant := "destructive" |}];
         in_flight := pred (in_flight p) |}
  end.

(** The page with its input box: the draft of [ChatInput] and the page
    state. [<ChatInput onSend={handleSendMessage} disabled={isLoading} />] *)
Record UI : Type := {
  draft : string;
  page : Page
}.

Definition initial : UI :=
  {| draft := "";
     page := {| messages := []; isLoading := false; toasts := [];
                in_flight := 0 |} |}.

(** The events of the page: typing into the input box, submitting it,
    and the awaited promise of a suspended call settling.  Typing is
    allowed in every state, and the promise is allowed to reject although
    the timer of the source only resolves; both only add behaviours. *)
Inductive Event : Type :=
| Change (value : string)
| Submit
| Settle (r : Settled).

(** What an event does; [None] when it cannot occur ([Settle] with no
    call suspended). *)
Definition dispatch (e : Event) (u : UI) : option UI :=
  match e with
  | Change value => Some {| draft := value; page := page u |}
  | Submit =>
      let (d, p) :=
        ChatInput.handleSubmit handleSendMessage (Some (isLoading (page u)))
          (draft u) (page u) in
      Some {| draft := d; page := p |}
  | Settle r =>
      match in_flight (page u) with
      | O => None
      | S _ => Some {| draft := draft u;
                       page := handleSendMessage_resume r (page u) |}
      end
  end.

Definition step (u u' : UI) : Prop := exists e, dispatch e u = Some u'.

Inductive reachable : UI -> Prop :=
| reachable_initial : reachable initial
| reachable_step u u' : reachable u -> step u u' -> reachable u'.

(** The busy flag counts the suspended calls. *)
Definition flag_counts (u : UI) : Prop :=
  in_flight (page u) = if isLoading (page u) then 1%nat else 0%nat.

(** Running a list of events from a state. *)
Fixpoint run (es : list Event) (u : UI) : option UI :=
  match es with
  | [] => Some u
  | e :: es' =>
      match dispatch e u with
      | Some u' => run es' u'
      | None => None
      end
  end.

End Index.

(** ** components/ChatMessage *)

Module ChatMessage.

(** [isUser = role === "user"], which decides the side a message is
    shown on. *)
Definition isUser (role : Index.Role) : bool :=
  match role with
  | Index.user => true
  | Index.assistant => false
  end.

End ChatMessage.

(** ** pages/Index: what the page renders *)

Module IndexView.

(** [messages.length === 0 ? <WelcomeScreen /> : ...] *)
Definition showsWelcome (p : Index.Page) : bool :=
  Nat.eqb (length (Index.messages p)) 0.

(** The typing indicator, [isLoading && ...], sits in the branch that
    lists the messages. *)
Definition showsTyping (p : Index.Page) : bool :=
  negb (showsWelcome p) && Index.isLoading p.

(** The messages shown on the user's side, and on the assistant's. *)
Fixpoint sent (l : list Index.Message) : nat :=
  match l with
  | [] => O
  | m :: l' =>
      if ChatMessage.isUser (Index.role m) then S (sent l') else sent l'
  end.

Fixpoint answered (l : list Index.Message) : nat :=
  match l with
  | [] => O
  | m :: l' =>
      if ChatMessage.isUser (Index.role m) then answered l'
      else S (answered l')
  end.

(** Every message sent is answered, reported as failed, or in flight. *)
Definition accounted (p : Index.Page) : Prop :=
  sent (Index.messages p)
  = (answered (Index.messages p) + length (Index.toasts p)
     + Index.in_flight p)%nat.

(** A user's message is never blank and carries no white space around. *)
Definition well_trimmed (m : Index.Message) : Prop :=
  ChatMessage.isUser (Index.role m) = true ->
  Index.content m <> "" /\ trim (Index.content m) = Index.content m.

End IndexView.

(** ** The application shell: router and toasts *)

Module App.

(** What the pages share beyond the browser state: the location of the
    router and the toasts shown, oldest first. *)
Record Shell : Type := {
  world : World;
  location : string;
  toasts : list Index.Toast
}.

(** [navigate(to)] *)
Definition navigate (to : string) (a : Shell) : Shell :=
  {| world := world a; location := to; toasts := toasts a |}.

(** [toast({ ... })] *)
Definition toast (t : Index.Toast) (a : Shell) : Shell :=
  {| world := world a; location := location a; toasts := toasts a ++ [t] |}.

(** Running a computation of the browser inside the shell. *)
Definition within {A} (m : Eff A) (a : Shell) : Shell * Outcome A :=
  ({| world := exec m (world a); location := location a;
      toasts := toasts a |}, settles m (world a)).

End App.

(** ** pages/Login *)

Module Login.

(** The state cells of the page. *)
Record Form : Type := {
  username : string;
  password : string;
  isLoading : bool
}.

Definition setIsLoading (v : bool) (f : Form) : Form :=
  {| username := username f; password := password f; isLoading := v |}.

(** [error.message] *)
Definition message (e : Exn) : string :=
  match e with
  | Error m => m
  | TypeError m => m
  | SyntaxError m => m
  end.

(** [error instanceof Error]: [TypeError] and [SyntaxError] inherit from
    [Error]. *)
Definition instanceof_Error (e : Exn) : bool :=
  match e with
  | Error _ => true
  | TypeError _ => true
  | SyntaxError _ => true
  end.

(** [handleSubmit], from the call to the end of its [finally] block. *)
Definition handleSubmit (env : option string)
    (backend : Request -> FetchResult AuthContext.TokenResponse)
    (f : Form) (a : App.Shell) : Form * App.Shell :=
  let f1 := setIsLoading true f in
  match App.within
          (AuthContext.login env backend (username f1) (password f1)) a with
  | (a', Fulfilled _) =>
      (setIsLoading false f1, App.navigate "/" a')
  | (a', Rejected error) =>
      (setIsLoading false f1,
       App.toast
         {| Index.title := "Authentication Failed";
            Index.description :=
              if instanceof_Error error then message error
              else "Please check your credentials";
            Index.variant := "destructive" |} a')
  end.

End Login.

(** ** components/Header *)

Module Header.

(** [handleLogout] *)
Definition handleLogout (a : App.Shell) : App.Shell :=
  App.navigate "/login" (fst (App.within AuthContext.logout a)).

End Header.

(** ** The failures named by the specification

    Each name stands for the exception the source throws at that place. *)

Module Taxonomy.

Definition Unauthenticated : Exn := Error "Not authenticated".

Definition SessionExpired : Exn :=
  Error "Session expired. Please login again.".

Definition BackendError (code : N) : Exn :=
  Error ("Backend error: " +:+ toString code).

Definition AuthenticationFailed : Exn :=
  Error "Invalid username or password".

End Taxonomy.
Export Taxonomy.

(** ** Fixtures *)

Module Sample.

(** Nothing stored, nobody logged in, nothing sent. *)
Definition fresh : World :=
  {| token := None; username := None; localStorage := ∅; requests := [] |}.

(** A mounted provider over a storage that holds a token only. *)
Definition token_only : World :=
  {| token := None; username := None;
     localStorage := {[ "access_token" := "t0k3n" ]};
     requests := [] |}.

(** A mounted provider over a storage that holds both fields. *)
Definition stored_session : World :=
  {| token := None; username := None;
     localStorage := <["username" := "rumi"]> {[ "access_token" := "t0k3n" ]};
     requests := [] |}.

(** Backends that answer every request the same way. *)
Definition always {J} (r : Response J) : Request -> FetchResult J :=
  fun _ => Responds r.

Definition says_hi : Response Api.ChatResponse :=
  {| status := 200; parsed := Some {| Api.response := "hi" |} |}.

Definition fails_with (code : N) : Response Api.ChatResponse :=
  {| status := code; parsed := None |}.

Definition grants (t : string) : Response AuthContext.TokenResponse :=
  {| status := 200; parsed := Some {| AuthContext.access_token := t |} |}.

Definition denies : Response AuthContext.TokenResponse :=
  {| status := 401; parsed := None |}.

(** A token endpoint that answers 200 with the JSON body [{}]. *)
Definition grants_nothing : Response AuthContext.TokenResponse :=
  {| status := 200;
     parsed := Some {| AuthContext.access_token := Undefined |} |}.

(** A backend that cannot be reached. *)
Definition down {J} : Request -> FetchResult J := fun _ => Unreachable.

(** A token endpoint that answers 200 with a body that is not JSON. *)
Definition garbled : Response AuthContext.TokenResponse :=
  {| status := 200; parsed := None |}.

(** The login page as first shown, with credentials typed in. *)
Definition credentials : Login.Form :=
  {| Login.username := "rumi"; Login.password := "secret";
     Login.isLoading := false |}.

Definition at_login : App.Shell :=
  {| App.world := fresh; App.location := "/login"; App.toasts := [] |}.

(** The page while the send of "hello" is outstanding, with a new draft
    typed in the meantime. *)
Definition busy : Index.UI :=
  {| Index.draft := "again";
     Index.page :=
       {| Index.messages :=
            [{| Index.role := Index.user; Index.content := "hello" |}];
          Index.isLoading := true;
          Index.toasts := [];
          Index.in_flight := 1 |} |}.

End Sample.

(** * Properties *)

(** ** Strings *)

Example trim_both_ends : trim "  hi there  " = "hi there".
Proof. reflexivity. Qed.

Example trim_line_terminators :
  trim (String (ascii_of_N 10) (String (ascii_of_N 9) "")) = "".
Proof. reflexivity. Qed.

Example toString_status : toString 500 = "500".
Proof. reflexivity. Qed.

Lemma truthy_false_iff (s : string) : truthy s = false <-> s = "".
Proof. destruct s; simpl; split; congruence. Qed.

Lemma trimStart_whitespace_only (s : string) :
  whitespace_only s = true -> trimStart s = "".
Proof.
  induction s as [|c r IH]; simpl; [reflexivity|].
  intros [Hc Hr]%andb_true_iff. rewrite Hc. auto.
Qed.

Lemma trim_whitespace_only (s : string) :
  whitespace_only s = true -> trim s = "".
Proof.
  intros H. unfold trim. now rewrite (trimStart_whitespace_only s H).
Qed.

Lemma trimEnd_empty_inv (s : string) :
  trimEnd s = "" -> whitespace_only s = true.
Proof.
  induction s as [|c r IH]; simpl; [reflexivity|].
  destruct (is_white_space c); simpl; [|discriminate].
  destruct (trimEnd r) eqn:E; simpl; [auto | discriminate].
Qed.

Lemma trimStart_empty_inv (s : string) :
  whitespace_only (trimStart s) = true -> whitespace_only s = true.
Proof.
  induction s as [|c r IH]; simpl; [reflexivity|].
  destruct (is_white_space c) eqn:E; simpl; [auto|].
  rewrite E. discriminate.
Qed.

(** [trim] yields the empty string exactly on white space. *)
Lemma trim_empty_iff (s : string) :
  trim s = "" <-> whitespace_only s = true.
Proof.
  split; [|apply trim_whitespace_only].
  intros H. apply trimStart_empty_inv, trimEnd_empty_inv, H.
Qed.

(** ** The taxonomy keeps the failures apart *)

Lemma BackendError_inj (a b : N) : BackendError a = BackendError b -> a = b.
Proof.
  unfold BackendError, toString. intros H.
  injection H as H. apply (inj pretty), H.
Qed.

(** ** The chat transport *)

Section TransportFacts.
Variable env : option string.
Variable backend : Request -> FetchResult Api.ChatResponse.

(** A falsy stored token ([null] or the empty string) stops the call
    before [fetch]: the world is left as it was. *)
Lemma sendChatMessage_falsy_token msg w :
  truthy_opt (localStorage w !! "access_token") = false ->
  Api.sendChatMessage env backend msg w = (w, Rejected Unauthenticated).
Proof.
  intros H. unfold Api.sendChatMessage, bind, getItem. now rewrite H.
Qed.

(** With a truthy stored token the call issues exactly one request, which
    carries the token as a bearer credential and the message as body,
    and then goes by the backend's answer. *)
Lemma sendChatMessage_truthy_token msg w t :
  localStorage w !! "access_token" = Some t ->
  truthy t = true ->
  let req :=
    {| url := Api.BACKEND_URL env +:+ "/api/chat";
       init := {| method := "POST";
                  headers := [("Content-Type", "application/json");
                              ("Authorization", "Bearer " +:+ t)];
                  body := JSON_stringify [("message", msg)] |} |} in
  let w' := {| token := token w; username := username w;
               localStorage := localStorage w;
               requests := requests w ++ [req] |} in
  Api.sendChatMessage env backend msg w =
    match backend req with
    | Unreachable => (w', Rejected (TypeError "Failed to fetch"))
    | Responds r =>
        if ok r then json r w'
        else if status r =? 401 then (w', Rejected SessionExpired)
        else (w', Rejected (BackendError (status r)))
    end.
Proof.
  intros Ht Hne. unfold Api.sendChatMessage, bind, getItem.
  rewrite Ht. simpl. rewrite Hne. simpl. unfold fetch. simpl.
  destruct (backend _) as [r|]; [|reflexivity].
  destruct (ok r); simpl; [reflexivity|].
  destruct (status r =? 401); reflexivity.
Qed.
End TransportFacts.

(** C1. Whatever the message, when local storage holds no token the send
    operation rejects with [Unauthenticated] and issues no network call:
    the request log, like the rest of the world, is as before. *)
Theorem send_without_token_is_unauthenticated
    (env : option string) (backend : Request -> FetchResult Api.ChatResponse)
    (msg : string) (w : World) :
  localStorage w !! "access_token" = None ->
  settles (Api.sendChatMessage env backend msg) w = Rejected Unauthenticated
  /\ requests (exec (Api.sendChatMessage env backend msg) w) = requests w
  /\ exec (Api.sendChatMessage env backend msg) w = w.
Proof.
  intros H. unfold settles, exec.
  rewrite sendChatMessage_falsy_token by now rewrite H.
  auto.
Qed.

Lemma send_without_token_is_unauthenticated_witness :
  localStorage Sample.fresh !! "access_token" = None
  /\ settles (Api.sendChatMessage None (Sample.always Sample.says_hi) "hello")
       Sample.fresh = Rejected Unauthenticated
  /\ requests (exec (Api.sendChatMessage None (Sample.always Sample.says_hi)
                       "hello") Sample.fresh) = [].
Proof.
  split; [reflexivity|].
  destruct (send_without_token_is_unauthenticated None
              (Sample.always Sample.says_hi) "hello" Sample.fresh)
    as (Hs & Hr & _); [reflexivity|].
  split; [exact Hs | exact Hr].
Defined.

(** C2. With a token present, a backend that answers 401 makes the send
    operation reject with [SessionExpired]; one that answers any other
    status outside 200-299 makes it reject with [BackendError] carrying
    that status. *)
Theorem send_classifies_http_failures
    (env : option string) (backend : Request -> FetchResult Api.ChatResponse)
    (msg : string) (w : World) (t : string) (r : Response Api.ChatResponse) :
  localStorage w !! "access_token" = Some t ->
  truthy t = true ->
  (forall req, backend req = Responds r) ->
  ok r = false ->
  (status r = 401 ->
     settles (Api.sendChatMessage env backend msg) w = Rejected SessionExpired)
  /\ (status r <> 401 ->
      settles (Api.sendChatMessage env backend msg) w =
        Rejected (BackendError (status r))).
Proof.
  intros Ht Hne Hb Hok. unfold settles.
  rewrite (sendChatMessage_truthy_token env backend msg w t Ht Hne).
  rewrite Hb, Hok. split; intros Hs.
  - apply N.eqb_eq in Hs. now rewrite Hs.
  - apply N.eqb_neq in Hs. now rewrite Hs.
Qed.

Lemma send_classifies_http_failures_witness :
  settles (Api.sendChatMessage None (Sample.always (Sample.fails_with 401))
             "hello") Sample.token_only = Rejected SessionExpired
  /\ settles (Api.sendChatMessage None (Sample.always (Sample.fails_with 500))
                "hello") Sample.token_only = Rejected (BackendError 500).
Proof.
  split.
  - apply (send_classifies_http_failures None
             (Sample.always (Sample.fails_with 401)) "hello"
             Sample.token_only "t0k3n" (Sample.fails_with 401));
      reflexivity.
  - apply (send_classifies_http_failures None
             (Sample.always (Sample.fails_with 500)) "hello"
             Sample.token_only "t0k3n" (Sample.fails_with 500));
      try reflexivity.
    discriminate.
Defined.

(** C3, as stated, fails on the transport: [sendChatMessage] does not look
    at its message, so with a token stored the empty message is posted to
    the backend like any other. *)
Lemma blank_send_reaches_network :
  whitespace_only "" = true
  /\ requests (exec (Api.sendChatMessage None (Sample.always Sample.says_hi) "")
                Sample.token_only)
     = [ {| url := "http://localhost:8000/api/chat";
            init := {| method := "POST";
                       headers := [("Content-Type", "application/json");
                                   ("Authorization", "Bearer t0k3n")];
                       body := JSON_stringify [("message", "")] |} |} ]
  /\ requests (exec (Api.sendChatMessage None (Sample.always Sample.says_hi) "")
                Sample.token_only)
     <> requests Sample.token_only.
Proof.
  split; [reflexivity|]. split; [reflexivity|].
  vm_compute. discriminate.
Qed.

(** C3, amended. The guard is in the input box: for every empty or
    white-space-only draft [handleSubmit] does not call [onSend], whatever
    the callback and the [disabled] prop; the draft and the owner's state
    (with it any request log) are left as they were. *)
Theorem blank_draft_is_not_sent
    {S : Type} (onSend : string -> S -> S) (disabled : option bool)
    (message : string) (s : S) :
  whitespace_only message = true ->
  ChatInput.handleSubmit onSend disabled message s = (message, s).
Proof.
  intros H. unfold ChatInput.handleSubmit.
  now rewrite (trim_whitespace_only message H).
Qed.

Lemma blank_draft_is_not_sent_witness :
  whitespace_only "   " = true
  /\ requests
       (snd (ChatInput.handleSubmit
               (fun m => exec (Api.sendChatMessage None
                                 (Sample.always Sample.says_hi) m))
               (Some false) "   " Sample.token_only)) = [].
Proof.
  split; [reflexivity|].
  rewrite (blank_draft_is_not_sent
             (fun m => exec (Api.sendChatMessage None
                               (Sample.always Sample.says_hi) m))
             (Some false) "   " Sample.token_only eq_refl).
  reflexivity.
Defined.

(** A draft with anything else in it is sent, trimmed, unless the input is
    disabled; the draft is then cleared. *)
Lemma handleSubmit_sends {S : Type} (onSend : string -> S -> S)
    (disabled : option bool) (message : string) (s : S) :
  whitespace_only message = false ->
  ChatInput.truthy_flag disabled = false ->
  ChatInput.handleSubmit onSend disabled message s
  = ("", onSend (trim message) s).
Proof.
  intros H Hd. unfold ChatInput.handleSubmit. rewrite Hd.
  destruct (truthy (trim message)) eqn:E; [reflexivity|].
  apply truthy_false_iff, trim_empty_iff in E. congruence.
Qed.

Lemma handleSubmit_disabled {S : Type} (onSend : string -> S -> S)
    (message : string) (s : S) :
  ChatInput.handleSubmit onSend (Some true) message s = (message, s).
Proof.
  unfold ChatInput.handleSubmit. simpl. now rewrite andb_false_r.
Qed.

(** ** The session provider *)

Lemma rehydrate_eq (w : World) :
  AuthContext.rehydrate w =
    if truthy_opt (localStorage w !! "access_token")
       && truthy_opt (localStorage w !! "username")
    then ({| token := localStorage w !! "access_token";
             username := localStorage w !! "username";
             localStorage := localStorage w;
             requests := requests w |}, Fulfilled tt)
    else (w, Fulfilled tt).
Proof.
  unfold AuthContext.rehydrate, bind, getItem. simpl.
  destruct (truthy_opt (localStorage w !! "access_token")
            && truthy_opt (localStorage w !! "username")); reflexivity.
Qed.

Lemma truthy_opt_is_Some (v : option string) :
  truthy_opt v = true -> is_Some v.
Proof. destruct v; simpl; [eauto | discriminate]. Qed.

(** With both fields stored and non-empty the effect restores them. *)
Lemma rehydrate_restores (w : World) (t u : string) :
  localStorage w !! "access_token" = Some t -> truthy t = true ->
  localStorage w !! "username" = Some u -> truthy u = true ->
  token (exec AuthContext.rehydrate w) = Some t
  /\ username (exec AuthContext.rehydrate w) = Some u.
Proof.
  intros Ht Hnt Hu Hnu. unfold exec. rewrite rehydrate_eq, Ht, Hu.
  simpl. rewrite Hnt, Hnu. simpl. auto.
Qed.

Example rehydrate_stored_session :
  token (exec AuthContext.rehydrate Sample.stored_session) = Some "t0k3n"
  /\ username (exec AuthContext.rehydrate Sample.stored_session)
     = Some "rumi".
Proof. now apply rehydrate_restores. Qed.

(** [isAuthenticated] holds exactly for a token that is a non-empty
    string. *)
Lemma isAuthenticated_iff (w : World) :
  AuthContext.isAuthenticated w = true
  <-> exists t, token w = Some t /\ t <> "".
Proof.
  unfold AuthContext.isAuthenticated. destruct (token w) as [t|]; simpl.
  - split.
    + intros H. exists t. split; [reflexivity|].
      intros ->. discriminate.
    + intros (t' & [= <-] & Hne). destruct t; [congruence | reflexivity].
  - split; [discriminate | intros (t & [=] & _)].
Qed.

Section ProviderFacts.
Variable env : option string.
Variable backend : Request -> FetchResult AuthContext.TokenResponse.

(** [login], case by case on what comes back to its one request. *)
Lemma login_eq user password w :
  let req :=
    {| url := AuthContext.BACKEND_URL env +:+ "/token";
       init := {| method := "POST";
                  headers := [("Content-Type",
                               "application/x-www-form-urlencoded")];
                  body := URLSearchParams [("username", user);
                                           ("password", password)] |} |} in
  let w' := {| token := token w; username := username w;
               localStorage := localStorage w;
               requests := requests w ++ [req] |} in
  AuthContext.login env backend user password w =
    match backend req with
    | Unreachable => (w', Rejected (TypeError "Failed to fetch"))
    | Responds r =>
        if ok r then
          match parsed r with
          | None => (w', Rejected (SyntaxError "Unexpected token in JSON"))
          | Some data =>
              ({| token := AuthContext.held (AuthContext.access_token data);
                  username := Some user;
                  localStorage :=
                    <["username" := user]>
                      (<["access_token" :=
                           AuthContext.ToString
                             (AuthContext.access_token data)]>
                         (localStorage w));
                  requests := requests w ++ [req] |}, Fulfilled tt)
          end
        else (w', Rejected AuthenticationFailed)
    end.
Proof.
  unfold AuthContext.login, bind, fetch. simpl.
  destruct (backend _) as [r|]; [|reflexivity].
  destruct (ok r); simpl; [|reflexivity].
  unfold json. destruct (parsed r); reflexivity.
Qed.
End ProviderFacts.

(** C4. Whatever the session state before, a login attempt answered with a
    status outside 200-299 rejects with [AuthenticationFailed] and leaves
    the token, the identity and the persisted storage as they were. *)
Theorem login_failure_changes_nothing
    (env : option string)
    (backend : Request -> FetchResult AuthContext.TokenResponse)
    (user password : string) (w : World)
    (r : Response AuthContext.TokenResponse) :
  (forall req, backend req = Responds r) ->
  ok r = false ->
  settles (AuthContext.login env backend user password) w
    = Rejected AuthenticationFailed
  /\ token (exec (AuthContext.login env backend user password) w) = token w
  /\ username (exec (AuthContext.login env backend user password) w)
     = username w
  /\ localStorage (exec (AuthContext.login env backend user password) w)
     = localStorage w.
Proof.
  intros Hb Hok. unfold settles, exec.
  rewrite login_eq, Hb, Hok. simpl. auto.
Qed.

Lemma login_failure_changes_nothing_witness :
  settles (AuthContext.login None (Sample.always Sample.denies) "rumi" "wrong")
    Sample.token_only = Rejected AuthenticationFailed
  /\ localStorage
       (exec (AuthContext.login None (Sample.always Sample.denies)
                "rumi" "wrong") Sample.token_only)
     = localStorage Sample.token_only.
Proof.
  destruct (login_failure_changes_nothing None (Sample.always Sample.denies)
              "rumi" "wrong" Sample.token_only Sample.denies)
    as (Hs & _ & _ & Hl); [reflexivity | reflexivity |].
  split; [exact Hs | exact Hl].
Defined.

(** C5. A login answered with a status in 200-299 and a body carrying an
    [access_token] fulfils; afterwards the in-memory token is that
    [access_token], the identity is the submitted username, and storage
    holds the two values under ["access_token"] and ["username"], its other
    keys being as before. *)
Theorem login_success_sets_and_persists
    (env : option string)
    (backend : Request -> FetchResult AuthContext.TokenResponse)
    (user password : string) (w : World)
    (r : Response AuthContext.TokenResponse) (t : string) :
  (forall req, backend req = Responds r) ->
  ok r = true ->
  parsed r = Some {| AuthContext.access_token := t |} ->
  settles (AuthContext.login env backend user password) w = Fulfilled tt
  /\ token (exec (AuthContext.login env backend user password) w) = Some t
  /\ username (exec (AuthContext.login env backend user password) w)
     = Some user
  /\ localStorage (exec (AuthContext.login env backend user password) w)
       !! "access_token" = Some t
  /\ localStorage (exec (AuthContext.login env backend user password) w)
       !! "username" = Some user
  /\ (forall k : string, k <> "access_token" -> k <> "username" ->
        localStorage (exec (AuthContext.login env backend user password) w)
          !! k = localStorage w !! k).
Proof.
  intros Hb Hok Hp. unfold settles, exec.
  rewrite login_eq, Hb, Hok, Hp. simpl.
  repeat split.
  - rewrite lookup_insert_ne by discriminate. apply lookup_insert_eq.
  - apply lookup_insert_eq.
  - intros k Ht Hu. now rewrite !lookup_insert_ne by congruence.
Qed.

Lemma login_success_sets_and_persists_witness :
  token (exec (AuthContext.login None (Sample.always (Sample.grants "t0k3n"))
                 "rumi" "secret") Sample.fresh) = Some "t0k3n"
  /\ username (exec (AuthContext.login None
                       (Sample.always (Sample.grants "t0k3n"))
                       "rumi" "secret") Sample.fresh) = Some "rumi".
Proof.
  destruct (login_success_sets_and_persists None
              (Sample.always (Sample.grants "t0k3n")) "rumi" "secret"
              Sample.fresh (Sample.grants "t0k3n") "t0k3n")
    as (_ & Ht & Hu & _); [reflexivity | reflexivity | reflexivity |].
  split; [exact Ht | exact Hu].
Defined.

(** C6, as stated, fails on the provider: [login] stores what the body
    holds without looking at it.  A 200 answer with the body [{}] fulfils
    and leaves the identity set with no token, a reachable state that is
    neither logged in nor logged out; and a granted token that is the
    empty string leaves a state with an identity that [isAuthenticated]
    denies. *)
Lemma unchecked_body_breaks_session :
  AuthContext.reachable None
    (exec (AuthContext.login None (Sample.always Sample.grants_nothing)
             "rumi" "secret") Sample.fresh)
  /\ token (exec (AuthContext.login None (Sample.always Sample.grants_nothing)
                    "rumi" "secret") Sample.fresh) = None
  /\ username (exec (AuthContext.login None
                       (Sample.always Sample.grants_nothing)
                       "rumi" "secret") Sample.fresh) = Some "rumi"
  /\ ~ AuthContext.both_or_neither
         (exec (AuthContext.login None (Sample.always Sample.grants_nothing)
                  "rumi" "secret") Sample.fresh)
  /\ AuthContext.reachable None
       (exec (AuthContext.login None (Sample.always (Sample.grants ""))
                "rumi" "secret") Sample.fresh)
  /\ username (exec (AuthContext.login None (Sample.always (Sample.grants ""))
                       "rumi" "secret") Sample.fresh) = Some "rumi"
  /\ AuthContext.isAuthenticated
       (exec (AuthContext.login None (Sample.always (Sample.grants ""))
                "rumi" "secret") Sample.fresh) = false.
Proof.
  assert (Hfresh : AuthContext.reachable None Sample.fresh)
    by (apply AuthContext.reachable_mounted; split; reflexivity).
  split; [eapply AuthContext.reachable_step;
          [exact Hfresh | apply AuthContext.step_login]|].
  split; [reflexivity|]. split; [reflexivity|].
  split.
  - intros [[[t Ht] _] | [_ Hu]]; [discriminate Ht | discriminate Hu].
  - split; [eapply AuthContext.reachable_step;
            [exact Hfresh | apply AuthContext.step_login]|].
    split; reflexivity.
Qed.

(** What the body [{}] leaves behind: the text "undefined" under the
    token key, next to the username. *)
Lemma missing_token_is_stored_as_text :
  localStorage (exec (AuthContext.login None
                        (Sample.always Sample.grants_nothing)
                        "rumi" "secret") Sample.fresh) !! "access_token"
  = Some "undefined".
Proof. reflexivity. Qed.

(** Holding [login] to a condition only removes transitions. *)
Lemma reachable_when_reachable (env : option string)
    (P : (Request -> FetchResult AuthContext.TokenResponse) -> string -> Prop)
    (w : World) :
  AuthContext.reachable_when env P w -> AuthContext.reachable env w.
Proof.
  induction 1 as [w Hm | w _ IH | backend name password w _ _ IH | w _ IH].
  - now apply AuthContext.reachable_mounted.
  - eapply AuthContext.reachable_step; [exact IH|].
    apply AuthContext.step_rehydrate.
  - eapply AuthContext.reachable_step; [exact IH|].
    apply AuthContext.step_login.
  - eapply AuthContext.reachable_step; [exact IH|].
    apply AuthContext.step_logout.
Qed.

(** The rehydration effect keeps both invariants: it sets both cells, to
    non-empty strings, or none. *)
Lemma rehydrate_both_or_neither (w : World) :
  AuthContext.both_or_neither w ->
  AuthContext.both_or_neither (exec AuthContext.rehydrate w).
Proof.
  intros Hinv. unfold exec. rewrite rehydrate_eq.
  destruct (truthy_opt (localStorage w !! "access_token")) eqn:Et;
    destruct (truthy_opt (localStorage w !! "username")) eqn:Eu;
    simpl; try exact Hinv.
  left. split; simpl; now apply truthy_opt_is_Some.
Qed.

Lemma rehydrate_in_or_out (w : World) :
  AuthContext.in_or_out w ->
  AuthContext.in_or_out (exec AuthContext.rehydrate w).
Proof.
  intros Hinv. unfold exec. rewrite rehydrate_eq.
  destruct (truthy_opt (localStorage w !! "access_token")) eqn:Et;
    destruct (truthy_opt (localStorage w !! "username")) eqn:Eu;
    simpl; try exact Hinv.
  right. split; assumption.
Qed.

Lemma when_sessions_in_or_out (env : option string) (w : World) :
  AuthContext.reachable_when env AuthContext.grants_sessions w ->
  AuthContext.in_or_out w.
Proof.
  induction 1 as [w [Ht Hu] | w _ IH | backend name password w HP _ IH
                 | w _ IH].
  - left. split; assumption.
  - now apply rehydrate_in_or_out.
  - unfold exec. rewrite login_eq.
    destruct (backend _) as [r|] eqn:Eb; [|exact IH].
    destruct (ok r) eqn:Eo; [|exact IH].
    destruct (parsed r) as [data|] eqn:Ep; [|exact IH].
    destruct HP as [Hn Hg].
    destruct (Hg _ r data Eb Eo Ep) as (t & Hd & Ht).
    right. simpl. rewrite Hd. simpl. split; assumption.
  - left. split; reflexivity.
Qed.

(** C6, amended. In every state the provider can reach from its mount
    (both cells [null], storage holding anything, one field alone
    included) by the rehydration effect, [login] and [logout], token and
    identity are both non-null or both null, provided the token endpoint
    answers every granted login with a string [access_token]; and where
    the granted tokens and the submitted usernames are moreover not empty,
    token and identity are both non-empty strings or both [null]. *)
Theorem session_both_or_neither (env : option string) (w : World) :
  AuthContext.reachable_when env AuthContext.grants_strings w ->
  AuthContext.both_or_neither w
  /\ (AuthContext.reachable_when env AuthContext.grants_sessions w ->
      AuthContext.in_or_out w).
Proof.
  intros H. split; [|apply when_sessions_in_or_out].
  induction H as [w [Ht Hu] | w _ IH | backend name password w HP _ IH
                 | w _ IH].
  - right. split; assumption.
  - now apply rehydrate_both_or_neither.
  - unfold exec. rewrite login_eq.
    destruct (backend _) as [r|] eqn:Eb; [|exact IH].
    destruct (ok r) eqn:Eo; [|exact IH].
    destruct (parsed r) as [data|] eqn:Ep; [|exact IH].
    destruct (HP _ r data Eb Eo Ep) as (t & Hd).
    left. simpl. rewrite Hd. simpl. split; eauto.
  - right. split; reflexivity.
Qed.

Lemma session_both_or_neither_witness :
  localStorage Sample.token_only !! "access_token" = Some "t0k3n"
  /\ localStorage Sample.token_only !! "username" = None
  /\ AuthContext.both_or_neither (exec AuthContext.rehydrate Sample.token_only).
Proof.
  split; [reflexivity|]. split; [reflexivity|].
  apply (session_both_or_neither None).
  apply AuthContext.when_rehydrate.
  apply AuthContext.when_mounted. split; reflexivity.
Defined.

(** C7. Whatever the state before, [logout] clears the token and the
    identity in memory and in storage, and doing it again changes
    nothing. *)
Theorem logout_clears_and_is_idempotent (w : World) :
  settles AuthContext.logout w = Fulfilled tt
  /\ token (exec AuthContext.logout w) = None
  /\ username (exec AuthContext.logout w) = None
  /\ localStorage (exec AuthContext.logout w) !! "access_token" = None
  /\ localStorage (exec AuthContext.logout w) !! "username" = None
  /\ exec AuthContext.logout (exec AuthContext.logout w)
     = exec AuthContext.logout w.
Proof.
  unfold settles, exec, AuthContext.logout, bind. simpl.
  repeat split.
  - rewrite lookup_delete_ne by discriminate. apply lookup_delete_eq.
  - apply lookup_delete_eq.
  - f_equal. apply map_eq. intros k.
    rewrite !lookup_delete.
    repeat case_decide; reflexivity.
Qed.

(** C10. The rehydration effect only reads storage: whatever storage
    holds, it is the same afterwards (and nothing is sent); and unless both
    fields are stored, a provider that was logged out stays so. *)
Theorem rehydrate_only_reads (w : World) :
  localStorage (exec AuthContext.rehydrate w) = localStorage w
  /\ requests (exec AuthContext.rehydrate w) = requests w
  /\ (AuthContext.mounted w ->
      ~ (is_Some (localStorage w !! "access_token")
         /\ is_Some (localStorage w !! "username")) ->
      AuthContext.mounted (exec AuthContext.rehydrate w)).
Proof.
  unfold exec. rewrite rehydrate_eq.
  destruct (truthy_opt (localStorage w !! "access_token")) eqn:Et;
    destruct (truthy_opt (localStorage w !! "username")) eqn:Eu;
    simpl; (split; [reflexivity|]; split; [reflexivity|]);
    intros Hm Hn; try exact Hm.
  exfalso. apply Hn. split; now apply truthy_opt_is_Some.
Qed.

Lemma rehydrate_only_reads_witness :
  localStorage (exec AuthContext.rehydrate Sample.token_only)
    = localStorage Sample.token_only
  /\ AuthContext.mounted (exec AuthContext.rehydrate Sample.token_only).
Proof.
  destruct (rehydrate_only_reads Sample.token_only) as (Hl & _ & Hm).
  split; [exact Hl|].
  apply Hm.
  - split; reflexivity.
  - intros [_ [u Hu]]. discriminate Hu.
Defined.

(** ** The chat page *)

Import Index.

Lemma run_reachable (es : list Event) (u u' : UI) :
  reachable u -> run es u = Some u' -> reachable u'.
Proof.
  revert u. induction es as [|e es IH]; simpl; intros u Hu Hrun.
  - now injection Hrun as <-.
  - destruct (dispatch e u) as [u1|] eqn:E; [|discriminate].
    apply (IH u1); [|exact Hrun].
    apply (reachable_step u); [exact Hu | now exists e].
Qed.

Lemma dispatch_flag_counts (e : Event) (u u' : UI) :
  dispatch e u = Some u' -> flag_counts u -> flag_counts u'.
Proof.
  unfold flag_counts. destruct u as [d p]. destruct e as [v| |r]; simpl.
  - intros [= <-]. auto.
  - unfold ChatInput.handleSubmit.
    destruct (truthy (trim d)); simpl;
      destruct (isLoading p) eqn:El; simpl; intros [= <-]; simpl;
      rewrite ?El; intros H; rewrite ?H; reflexivity.
  - destruct (in_flight p) as [|n] eqn:En; [discriminate|].
    intros [= <-] H. destruct r; simpl; rewrite En;
      destruct (isLoading p); simpl; congruence.
Qed.

Lemma reachable_flag_counts (u : UI) : reachable u -> flag_counts u.
Proof.
  induction 1 as [|u u' _ IH [e He]].
  - reflexivity.
  - eapply dispatch_flag_counts; eassumption.
Qed.

(** C9. In every state the page can reach, at most one send is in flight,
    and it is in flight exactly while the busy flag is set; while it is,
    submitting starts nothing (the state stays as it is, whatever the
    draft); and once the send settles, either way, the flag is down and
    nothing is in flight. *)
Theorem at_most_one_send_in_flight (u : UI) :
  reachable u ->
  (in_flight (page u) <= 1)%nat
  /\ (isLoading (page u) = true <-> in_flight (page u) = 1%nat)
  /\ (in_flight (page u) = 1%nat -> dispatch Submit u = Some u)
  /\ (forall r u', dispatch (Settle r) u = Some u' ->
        isLoading (page u') = false /\ in_flight (page u') = 0%nat).
Proof.
  intros Hr. pose proof (reachable_flag_counts u Hr) as Hf.
  unfold flag_counts in Hf. destruct u as [d p]. simpl in *.
  destruct (isLoading p) eqn:El; rewrite Hf.
  - split; [lia|]. split; [tauto|]. split.
    + intros _. now rewrite handleSubmit_disabled.
    + intros r u'. intros [= <-]. destruct r; simpl; rewrite Hf; auto.
  - split; [lia|]. split; [split; discriminate|]. split.
    + discriminate.
    + intros r u'. discriminate.
Qed.

Lemma at_most_one_send_in_flight_witness :
  run [Change "hello"; Submit; Change "again"] initial = Some Sample.busy
  /\ in_flight (page Sample.busy) = 1%nat
  /\ dispatch Submit Sample.busy = Some Sample.busy.
Proof.
  assert (Hrun : run [Change "hello"; Submit; Change "again"] initial
                 = Some Sample.busy) by reflexivity.
  split; [exact Hrun|]. split; [reflexivity|].
  destruct (at_most_one_send_in_flight Sample.busy) as (_ & _ & Hs & _).
  - exact (run_reachable _ initial Sample.busy reachable_initial Hrun).
  - apply Hs. reflexivity.
Defined.

(** What one exchange adds to the log, whatever the log before and
    whatever was sent: the user's message, then the fixed reply. *)
Lemma exchange_appends (content : string) (p : Page) :
  messages (handleSendMessage_resume Resolves (handleSendMessage content p))
  = (messages p ++ [ {| role := user; content := content |};
                     {| role := assistant; content := placeholder |} ])%list.
Proof. simpl. now rewrite <- app_assoc. Qed.

(** C8, as stated, fails on the page: typing "hello", submitting and letting
    the send resolve leaves a second entry that is not
    [{role:"assistant",content:"hi"}]. *)
Lemma hello_is_not_answered_hi :
  (fun u => messages (page u))
    <$> run [Change "hello"; Submit; Settle Resolves] initial
  <> Some [ {| role := user; content := "hello" |};
            {| role := assistant; content := "hi" |} ].
Proof. vm_compute. discriminate. Qed.

(** C8, amended. From the empty log, sending "hello" and letting the send
    resolve yields exactly two entries, [{role:"user",content:"hello"}]
    then the assistant entry with the fixed placeholder text, in that
    order; the page does not call the transport. The transport on its own,
    with a token stored and the backend answering [{response:"hi"}],
    fulfils with [{response:"hi"}]. *)
Theorem hello_round_trip
    (env : option string) (w : World) (t : string) :
  localStorage w !! "access_token" = Some t ->
  truthy t = true ->
  (fun u => messages (page u))
    <$> run [Change "hello"; Submit; Settle Resolves] initial
  = Some [ {| role := user; content := "hello" |};
           {| role := assistant; content := placeholder |} ]
  /\ settles (Api.sendChatMessage env (Sample.always Sample.says_hi) "hello") w
     = Fulfilled {| Api.response := "hi" |}.
Proof.
  intros Ht Hne. split; [reflexivity|].
  unfold settles.
  now rewrite (sendChatMessage_truthy_token env _ "hello" w t Ht Hne).
Qed.

Lemma hello_round_trip_witness :
  settles (Api.sendChatMessage None (Sample.always Sample.says_hi) "hello")
    Sample.token_only = Fulfilled {| Api.response := "hi" |}.
Proof.
  apply (hello_round_trip None Sample.token_only "t0k3n"); reflexivity.
Defined.

(** * Further properties *)

(** ** The chat transport, beyond its failures *)

(** X1. Whatever the message, the stored token and the backend's answer,
    [sendChatMessage] leaves the provider's cells and the storage as they
    were, and issues no request or exactly one: it never retries. *)
Theorem send_touches_only_the_network
    (env : option string) (backend : Request -> FetchResult Api.ChatResponse)
    (msg : string) (w : World) :
  token (exec (Api.sendChatMessage env backend msg) w) = token w
  /\ username (exec (Api.sendChatMessage env backend msg) w) = username w
  /\ localStorage (exec (Api.sendChatMessage env backend msg) w)
     = localStorage w
  /\ (requests (exec (Api.sendChatMessage env backend msg) w) = requests w
      \/ exists req,
           requests (exec (Api.sendChatMessage env backend msg) w)
           = (requests w ++ [req])%list).
Proof.
  unfold exec.
  destruct (truthy_opt (localStorage w !! "access_token")) eqn:E.
  - destruct (localStorage w !! "access_token") as [t|] eqn:Et;
      [|discriminate].
    rewrite (sendChatMessage_truthy_token env backend msg w t Et E).
    destruct (backend _) as [r|]; simpl; [|eauto 6].
    destruct (ok r); [|destruct (status r =? 401); simpl; eauto 6].
    unfold json. destruct (parsed r); simpl; eauto 6.
  - rewrite (sendChatMessage_falsy_token env backend msg w E). simpl. auto.
Qed.

(** X2. With a non-empty token stored, the one request issued is the POST
    to [/api/chat] under the backend URL, with the stored token as bearer
    credential and the message, untouched, as JSON body; this does not
    depend on what the backend answers. *)
Theorem send_carries_token_and_message
    (env : option string) (backend : Request -> FetchResult Api.ChatResponse)
    (msg : string) (w : World) (t : string) :
  localStorage w !! "access_token" = Some t ->
  truthy t = true ->
  requests (exec (Api.sendChatMessage env backend msg) w)
  = (requests w ++ [Api.chat_request env t msg])%list.
Proof.
  intros Ht Hne. unfold exec.
  rewrite (sendChatMessage_truthy_token env backend msg w t Ht Hne).
  fold (Api.chat_request env t msg).
  destruct (backend _) as [r|]; simpl; [|reflexivity].
  destruct (ok r); [|destruct (status r =? 401); reflexivity].
  unfold json. destruct (parsed r); reflexivity.
Qed.

Lemma send_carries_token_and_message_witness :
  requests (exec (Api.sendChatMessage (Some "https://api.example")
                    (Sample.always (Sample.fails_with 503)) " hello ")
              Sample.token_only)
  = [ {| url := "https://api.example/api/chat";
         init := {| method := "POST";
                    headers := [("Content-Type", "application/json");
                                ("Authorization", "Bearer t0k3n")];
                    body := JSON_stringify [("message", " hello ")] |} |} ].
Proof.
  apply (send_carries_token_and_message (Some "https://api.example")
           (Sample.always (Sample.fails_with 503)) " hello "
           Sample.token_only "t0k3n"); reflexivity.
Defined.

(** X3. [sendChatMessage] fulfils with a reply exactly when a non-empty
    token is stored and the backend answers its request with a status in
    200-299 and a JSON body: then the reply is that body, as it came.
    Without a token, or on any other answer, it never fulfils. *)
Theorem send_fulfils_iff
    (env : option string) (backend : Request -> FetchResult Api.ChatResponse)
    (msg : string) (w : World) (data : Api.ChatResponse) :
  settles (Api.sendChatMessage env backend msg) w = Fulfilled data
  <-> exists t r,
        localStorage w !! "access_token" = Some t
        /\ truthy t = true
        /\ backend (Api.chat_request env t msg) = Responds r
        /\ ok r = true
        /\ parsed r = Some data.
Proof.
  unfold settles. split.
  - destruct (truthy_opt (localStorage w !! "access_token")) eqn:E.
    + destruct (localStorage w !! "access_token") as [t|] eqn:Et;
        [|discriminate].
      rewrite (sendChatMessage_truthy_token env backend msg w t Et E).
      fold (Api.chat_request env t msg).
      destruct (backend _) as [r|] eqn:Eb; simpl; [|discriminate].
      destruct (ok r) eqn:Eo;
        [|destruct (status r =? 401); simpl; discriminate].
      unfold json. destruct (parsed r) as [d|] eqn:Ep; simpl; [|discriminate].
      intros [= <-]. exists t, r. auto.
    + rewrite (sendChatMessage_falsy_token env backend msg w E).
      simpl. discriminate.
  - intros (t & r & Ht & Hne & Hb & Hok & Hp).
    rewrite (sendChatMessage_truthy_token env backend msg w t Ht Hne).
    fold (Api.chat_request env t msg). rewrite Hb, Hok.
    unfold json. now rewrite Hp.
Qed.

(** X4. Failures that are not HTTP statuses pass through unwrapped: with
    a non-empty token stored, an unreachable backend makes the call reject
    with the [TypeError] of [fetch], and a 200-299 answer whose body is not
    JSON makes it reject with the [SyntaxError] of [json()]. *)
Theorem send_passes_platform_failures_on
    (env : option string) (backend : Request -> FetchResult Api.ChatResponse)
    (msg : string) (w : World) (t : string) :
  localStorage w !! "access_token" = Some t ->
  truthy t = true ->
  (backend (Api.chat_request env t msg) = Unreachable ->
     exists m, settles (Api.sendChatMessage env backend msg) w
               = Rejected (TypeError m))
  /\ (forall r, backend (Api.chat_request env t msg) = Responds r ->
        ok r = true -> parsed r = None ->
        exists m, settles (Api.sendChatMessage env backend msg) w
                  = Rejected (SyntaxError m)).
Proof.
  intros Ht Hne. unfold settles.
  rewrite (sendChatMessage_truthy_token env backend msg w t Ht Hne).
  fold (Api.chat_request env t msg). split.
  - intros ->. simpl. eauto.
  - intros r -> Hok Hp. rewrite Hok. unfold json. rewrite Hp. simpl. eauto.
Qed.

Lemma send_passes_platform_failures_on_witness :
  exists m, settles (Api.sendChatMessage None Sample.down "hello")
              Sample.token_only = Rejected (TypeError m).
Proof.
  destruct (send_passes_platform_failures_on None Sample.down "hello"
              Sample.token_only "t0k3n") as [H _];
    [reflexivity | reflexivity |].
  apply H. reflexivity.
Defined.

(** X5. A token stored as the empty string counts as no token: the call
    rejects with [Unauthenticated] and the world, request log included,
    is as before. *)
Theorem send_with_empty_token_is_unauthenticated
    (env : option string) (backend : Request -> FetchResult Api.ChatResponse)
    (msg : string) (w : World) :
  localStorage w !! "access_token" = Some "" ->
  settles (Api.sendChatMessage env backend msg) w = Rejected Unauthenticated
  /\ exec (Api.sendChatMessage env backend msg) w = w.
Proof.
  intros H. unfold settles, exec.
  rewrite sendChatMessage_falsy_token by now rewrite H.
  auto.
Qed.

Lemma send_with_empty_token_is_unauthenticated_witness :
  settles (Api.sendChatMessage None (Sample.always Sample.says_hi) "hello")
    {| token := None; username := None;
       localStorage := {[ "access_token" := "" ]}; requests := [] |}
  = Rejected Unauthenticated.
Proof.
  apply (send_with_empty_token_is_unauthenticated None
           (Sample.always Sample.says_hi) "hello"
           {| token := None; username := None;
              localStorage := {[ "access_token" := "" ]}; requests := [] |}).
  reflexivity.
Defined.

(** ** The session provider, beyond single calls *)

(** X6. [login] is all or nothing on every failure of its exchange with
    the backend: when the backend cannot be reached, answers with a status
    outside 200-299, or answers in 200-299 with a body that is not JSON,
    [login] rejects, and the token, the identity and the storage are as
    before. *)
Theorem login_failed_exchange_changes_nothing
    (env : option string)
    (backend : Request -> FetchResult AuthContext.TokenResponse)
    (name password : string) (w : World) :
  backend (AuthContext.token_request env name password) = Unreachable
  \/ (exists r,
        backend (AuthContext.token_request env name password) = Responds r
        /\ (ok r = false \/ parsed r = None)) ->
  (exists e,
     settles (AuthContext.login env backend name password) w = Rejected e)
  /\ token (exec (AuthContext.login env backend name password) w) = token w
  /\ username (exec (AuthContext.login env backend name password) w)
     = username w
  /\ localStorage (exec (AuthContext.login env backend name password) w)
     = localStorage w.
Proof.
  unfold settles, exec. rewrite login_eq.
  fold (AuthContext.token_request env name password).
  intros [-> | (r & -> & [Hok | Hp])]; simpl.
  - eauto.
  - rewrite Hok. simpl. eauto.
  - destruct (ok r); simpl; [rewrite Hp; simpl|]; eauto.
Qed.

Lemma login_failed_exchange_changes_nothing_witness :
  localStorage (exec (AuthContext.login None (Sample.always Sample.garbled)
                        "rumi" "secret") Sample.token_only)
  = localStorage Sample.token_only.
Proof.
  apply (login_failed_exchange_changes_nothing None
           (Sample.always Sample.garbled) "rumi" "secret" Sample.token_only).
  right. exists Sample.garbled. split; [reflexivity|]. right. reflexivity.
Defined.

(** X7. Whatever the state before and whatever comes back, [login] issues
    exactly one request, the form-encoded POST of the username and the
    password to [/token] under the backend URL, with no credential header;
    and it writes no storage key besides ["access_token"] and
    ["username"]. *)
Theorem login_posts_credentials_once
    (env : option string)
    (backend : Request -> FetchResult AuthContext.TokenResponse)
    (name password : string) (w : World) :
  requests (exec (AuthContext.login env backend name password) w)
  = (requests w ++
       [ {| url := AuthContext.BACKEND_URL env +:+ "/token";
            init := {| method := "POST";
                       headers := [("Content-Type",
                                    "application/x-www-form-urlencoded")];
                       body := URLSearchParams [("username", name);
                                                ("password", password)] |}
         |} ])%list
  /\ (forall k : string, k <> "access_token" -> k <> "username" ->
        localStorage (exec (AuthContext.login env backend name password) w)
          !! k = localStorage w !! k).
Proof.
  unfold exec. rewrite login_eq.
  destruct (backend _) as [r|]; simpl; [|auto].
  destruct (ok r); simpl; [|auto].
  destruct (parsed r); simpl; [|auto].
  split; [reflexivity|].
  intros k Ht Hu. now rewrite !lookup_insert_ne by congruence.
Qed.

(** X8. Persisting and rehydrating round-trip: after a successful login, a
    page reload followed by the rehydration effect restores the same token
    and identity, provided neither is the empty string; if either is, the
    reloaded provider is logged out. *)
Theorem session_survives_reload
    (env : option string)
    (backend : Request -> FetchResult AuthContext.TokenResponse)
    (name password : string) (w : World)
    (r : Response AuthContext.TokenResponse) (t : string) :
  (forall req, backend req = Responds r) ->
  ok r = true ->
  parsed r = Some {| AuthContext.access_token := t |} ->
  token (exec AuthContext.rehydrate
           (AuthContext.remount
              (exec (AuthContext.login env backend name password) w)))
  = (if truthy t && truthy name then Some t else None)
  /\ username (exec AuthContext.rehydrate
                 (AuthContext.remount
                    (exec (AuthContext.login env backend name password) w)))
     = (if truthy t && truthy name then Some name else None).
Proof.
  intros Hb Hok Hp. unfold exec at 2 4.
  rewrite login_eq, Hb, Hok, Hp. simpl.
  unfold exec. rewrite rehydrate_eq. unfold AuthContext.remount. simpl.
  rewrite lookup_insert_eq.
  rewrite lookup_insert_ne by discriminate. rewrite lookup_insert_eq.
  simpl. destruct (truthy t && truthy name); simpl; auto.
Qed.

Lemma session_survives_reload_witness :
  token (exec AuthContext.rehydrate
           (AuthContext.remount
              (exec (AuthContext.login None
                       (Sample.always (Sample.grants "t0k3n"))
                       "rumi" "secret") Sample.fresh)))
  = Some "t0k3n"
  /\ token (exec AuthContext.rehydrate
              (AuthContext.remount
                 (exec (AuthContext.login None
                          (Sample.always (Sample.grants "t0k3n"))
                          "" "secret") Sample.fresh)))
     = None.
Proof.
  split.
  - apply (session_survives_reload None
             (Sample.always (Sample.grants "t0k3n")) "rumi" "secret"
             Sample.fresh (Sample.grants "t0k3n") "t0k3n"); reflexivity.
  - apply (session_survives_reload None
             (Sample.always (Sample.grants "t0k3n")) "" "secret"
             Sample.fresh (Sample.grants "t0k3n") "t0k3n"); reflexivity.
Defined.

(** X9. Logging out sticks: after [logout] the rehydration effect changes
    nothing, also after a page reload, so the provider stays logged
    out. *)
Theorem logout_survives_reload (w : World) :
  exec AuthContext.rehydrate (exec AuthContext.logout w)
  = exec AuthContext.logout w
  /\ AuthContext.mounted
       (exec AuthContext.rehydrate
          (AuthContext.remount (exec AuthContext.logout w))).
Proof.
  unfold exec. rewrite !rehydrate_eq.
  unfold AuthContext.remount, AuthContext.logout, bind. simpl.
  rewrite lookup_delete_ne by discriminate. rewrite lookup_delete_eq.
  simpl. split; [reflexivity | split; reflexivity].
Qed.

(** X10. [logout] never contacts the backend and removes nothing from
    storage but the two session keys. *)
Theorem logout_is_local (w : World) :
  requests (exec AuthContext.logout w) = requests w
  /\ (forall k : string, k <> "access_token" -> k <> "username" ->
        localStorage (exec AuthContext.logout w) !! k
        = localStorage w !! k).
Proof.
  unfold exec, AuthContext.logout, bind. simpl.
  split; [reflexivity|].
  intros k Ht Hu. now rewrite !lookup_delete_ne by congruence.
Qed.

Lemma step_mirrors_storage (env : option string) (w w' : World) :
  AuthContext.step env w w' ->
  AuthContext.mirrors_storage w -> AuthContext.mirrors_storage w'.
Proof.
  intros Hstep [Ht Hu]. destruct Hstep as [w | backend name password w | w].
  - unfold exec. rewrite rehydrate_eq.
    destruct (_ && _); simpl; [|split; assumption].
    split; simpl; auto.
  - unfold exec. rewrite login_eq.
    destruct (backend _) as [r|]; [|split; assumption].
    destruct (ok r); [|split; assumption].
    destruct (parsed r) as [data|]; [|split; assumption].
    split; simpl.
    + intros t Hheld. rewrite lookup_insert_ne by discriminate.
      rewrite lookup_insert_eq.
      destruct (AuthContext.access_token data); simpl in *; congruence.
    + intros u [= <-]. apply lookup_insert_eq.
  - split; simpl; discriminate.
Qed.

Lemma reachable_mirrors_storage (env : option string) (w : World) :
  AuthContext.reachable env w -> AuthContext.mirrors_storage w.
Proof.
  induction 1 as [w [Ht Hu] | w w' _ IH Hstep].
  - split; intros x Hx; congruence.
  - eapply step_mirrors_storage; eassumption.
Qed.



(** X12. The transport and the provider agree: in every state the
    provider can reach, if it holds a non-empty token then a chat message
    is sent with exactly that token as bearer credential. *)
Theorem send_uses_the_providers_token
    (env : option string) (backend : Request -> FetchResult Api.ChatResponse)
    (msg : string) (w : World) (t : string) :
  AuthContext.reachable env w ->
  token w = Some t ->
  truthy t = true ->
  requests (exec (Api.sendChatMessage env backend msg) w)
  = (requests w ++ [Api.chat_request env t msg])%list.
Proof.
  intros Hr Ht Hne.
  destruct (reachable_mirrors_storage env w Hr) as [Hm _].
  unfold exec.
  rewrite (sendChatMessage_truthy_token env backend msg w t (Hm t Ht) Hne).
  fold (Api.chat_request env t msg).
  destruct (backend _) as [r|]; simpl; [|reflexivity].
  destruct (ok r); [|destruct (status r =? 401); reflexivity].
  unfold json. destruct (parsed r); reflexivity.
Qed.

Lemma send_uses_the_providers_token_witness :
  requests (exec (Api.sendChatMessage None (Sample.always Sample.says_hi)
                    "hello")
              (exec AuthContext.rehydrate Sample.stored_session))
  = [Api.chat_request None "t0k3n" "hello"].
Proof.
  apply (send_uses_the_providers_token None (Sample.always Sample.says_hi)
           "hello" (exec AuthContext.rehydrate Sample.stored_session)
           "t0k3n").
  - apply (AuthContext.reachable_step None Sample.stored_session).
    + apply AuthContext.reachable_mounted. split; reflexivity.
    + apply AuthContext.step_rehydrate.
  - reflexivity.
  - reflexivity.
Defined.

(** X13. After [logout], from any state, a chat message is refused with
    [Unauthenticated] and nothing is sent. *)
Theorem send_after_logout_is_unauthenticated
    (env : option string) (backend : Request -> FetchResult Api.ChatResponse)
    (msg : string) (w : World) :
  settles (Api.sendChatMessage env backend msg) (exec AuthContext.logout w)
  = Rejected Unauthenticated
  /\ requests (exec (Api.sendChatMessage env backend msg)
                 (exec AuthContext.logout w))
     = requests w.
Proof.
  assert (H : truthy_opt (localStorage (exec AuthContext.logout w)
                            !! "access_token") = false).
  { unfold exec, AuthContext.logout, bind. simpl.
    rewrite lookup_delete_ne by discriminate. now rewrite lookup_delete_eq. }
  unfold settles. unfold exec at 2.
  rewrite (sendChatMessage_falsy_token env backend msg _ H).
  split; reflexivity.
Qed.

(** X14. The rehydration effect is idempotent: running it twice leaves
    the state of running it once, whatever storage holds. *)
Theorem rehydrate_idempotent (w : World) :
  exec AuthContext.rehydrate (exec AuthContext.rehydrate w)
  = exec AuthContext.rehydrate w.
Proof.
  unfold exec. rewrite (rehydrate_eq w).
  destruct (_ && _) eqn:E; simpl; rewrite rehydrate_eq; simpl; now rewrite E.
Qed.

(** X15. [isAuthenticated] follows the operations: it is false after
    [logout], from any state, and after a successful login it is true
    exactly when the token granted is not the empty string. *)
Theorem isAuthenticated_after
    (env : option string)
    (backend : Request -> FetchResult AuthContext.TokenResponse)
    (name password : string) (w : World)
    (r : Response AuthContext.TokenResponse) (t : string) :
  (forall req, backend req = Responds r) ->
  ok r = true ->
  parsed r = Some {| AuthContext.access_token := t |} ->
  AuthContext.isAuthenticated (exec AuthContext.logout w) = false
  /\ AuthContext.isAuthenticated
       (exec (AuthContext.login env backend name password) w) = truthy t
  /\ AuthContext.isAuthenticated
       (exec AuthContext.logout
          (exec (AuthContext.login env backend name password) w)) = false.
Proof.
  intros Hb Hok Hp. unfold AuthContext.isAuthenticated, exec.
  rewrite login_eq, Hb, Hok, Hp. simpl. auto.
Qed.

Lemma isAuthenticated_after_witness :
  AuthContext.isAuthenticated
    (exec (AuthContext.login None (Sample.always (Sample.grants ""))
             "rumi" "secret") Sample.fresh) = false.
Proof.
  apply (isAuthenticated_after None (Sample.always (Sample.grants ""))
           "rumi" "secret" Sample.fresh (Sample.grants "") "");
    reflexivity.
Defined.

(** ** More on [trim] *)

Lemma trimEnd_idempotent (s : string) : trimEnd (trimEnd s) = trimEnd s.
Proof.
  induction s as [|c r IH]; simpl; [reflexivity|].
  destruct (is_white_space c && negb (truthy (trimEnd r))) eqn:E;
    simpl; [reflexivity|].
  now rewrite IH, E.
Qed.

Lemma trimStart_head (s : string) :
  trimStart s = ""
  \/ exists c r, trimStart s = String c r /\ is_white_space c = false.
Proof.
  induction s as [|c r IH]; simpl; [now left|].
  destruct (is_white_space c) eqn:E; [exact IH|].
  right. now exists c, r.
Qed.

Lemma trim_idempotent (s : string) : trim (trim s) = trim s.
Proof.
  unfold trim. destruct (trimStart_head s) as [-> | (c & r & -> & Hc)].
  - reflexivity.
  - assert (He : forall r', trimEnd (String c r') = String c (trimEnd r'))
      by (intros r'; simpl; now rewrite Hc).
    rewrite He. simpl. rewrite Hc. rewrite He.
    now rewrite trimEnd_idempotent.
Qed.

(** ** The input box, beyond blank drafts *)

(** X16. The submit button and the submit handler agree: [handleSubmit]
    does nothing exactly when the button is rendered disabled, and
    otherwise hands the trimmed draft to [onSend] and clears the draft. *)
Theorem button_agrees_with_handler
    {S : Type} (onSend : string -> S -> S) (disabled : option bool)
    (message : string) (s : S) :
  ChatInput.handleSubmit onSend disabled message s
  = if ChatInput.submit_disabled message disabled then (message, s)
    else ("", onSend (trim message) s).
Proof.
  unfold ChatInput.handleSubmit, ChatInput.submit_disabled.
  destruct (truthy (trim message)), (ChatInput.truthy_flag disabled);
    reflexivity.
Qed.

(** X17. Whatever the draft, [handleSubmit] calls [onSend] at most once,
    and what it passes is never blank and carries no white space at
    either end. *)
Theorem only_trimmed_text_is_sent
    (disabled : option bool) (message : string) :
  snd (ChatInput.handleSubmit (fun m sent => m :: sent) disabled message [])
  = []
  \/ exists m,
       snd (ChatInput.handleSubmit (fun m sent => m :: sent) disabled
              message []) = [m]
       /\ m = trim message /\ m <> "" /\ trim m = m
       /\ whitespace_only m = false.
Proof.
  unfold ChatInput.handleSubmit.
  destruct (truthy (trim message)) eqn:E; simpl; [|now left].
  destruct (ChatInput.truthy_flag disabled); simpl; [now left|].
  right. exists (trim message). repeat split.
  - intros H. rewrite H in E. discriminate.
  - apply trim_idempotent.
  - destruct (whitespace_only (trim message)) eqn:W; [|reflexivity].
    apply trim_whitespace_only in W. rewrite trim_idempotent in W.
    rewrite W in E. discriminate.
Qed.

(** X18. Of all keys only a plain Enter submits: [handleKeyDown] calls
    [preventDefault] exactly for Enter without Shift and then does what
    [handleSubmit] does; for Shift+Enter and for every other key it leaves
    the draft and the owner's state alone and lets the key through. *)
Theorem only_plain_enter_submits
    {S : Type} (onSend : string -> S -> S) (disabled : option bool)
    (e : ChatInput.KeyboardEvent) (message : string) (s : S) :
  (fst (ChatInput.handleKeyDown onSend disabled e message s) = true
   <-> ChatInput.key e = "Enter" /\ ChatInput.shiftKey e = false)
  /\ (fst (ChatInput.handleKeyDown onSend disabled e message s) = true ->
      snd (ChatInput.handleKeyDown onSend disabled e message s)
      = ChatInput.handleSubmit onSend disabled message s)
  /\ (fst (ChatInput.handleKeyDown onSend disabled e message s) = false ->
      snd (ChatInput.handleKeyDown onSend disabled e message s)
      = (message, s)).
Proof.
  unfold ChatInput.handleKeyDown.
  destruct (String.eqb (ChatInput.key e) "Enter") eqn:Ek;
    destruct (ChatInput.shiftKey e) eqn:Es; simpl;
    (split; [split|split]); try discriminate; try reflexivity;
    try (intros [Hk Hs]; try discriminate;
         apply String.eqb_eq in Hk; congruence).
  intros _. split; [now apply String.eqb_eq | reflexivity].
Qed.

Lemma only_plain_enter_submits_witness :
  ChatInput.handleKeyDown (fun m sent => m :: sent) None
    {| ChatInput.key := "Enter"; ChatInput.shiftKey := true |} "hello" []
  = (false, ("hello", [])).
Proof.
  destruct (only_plain_enter_submits (fun m sent => m :: sent) None
              {| ChatInput.key := "Enter"; ChatInput.shiftKey := true |}
              "hello" []) as (_ & _ & H).
  specialize (H eq_refl).
  apply injective_projections; [reflexivity | exact H].
Defined.

(** ** The chat page, beyond the busy flag *)

Lemma sent_app (l k : list Message) :
  IndexView.sent (l ++ k) = (IndexView.sent l + IndexView.sent k)%nat.
Proof.
  induction l as [|m l IH]; simpl; [reflexivity|].
  destruct (ChatMessage.isUser (role m)); simpl; now rewrite IH.
Qed.

Lemma answered_app (l k : list Message) :
  IndexView.answered (l ++ k)
  = (IndexView.answered l + IndexView.answered k)%nat.
Proof.
  induction l as [|m l IH]; simpl; [reflexivity|].
  destruct (ChatMessage.isUser (role m)); simpl; now rewrite IH.
Qed.

(** One event adds at most one entry, at the end. *)
Lemma dispatch_appends (e : Event) (u u' : UI) :
  dispatch e u = Some u' ->
  exists more, messages (page u') = (messages (page u) ++ more)%list
               /\ (length more <= 1)%nat.
Proof.
  destruct u as [d p]. destruct e as [v| |r]; simpl.
  - intros [= <-]. exists []. simpl. rewrite app_nil_r. auto.
  - unfold ChatInput.handleSubmit.
    destruct (truthy (trim d) && _); intros [= <-]; simpl.
    + eexists. split; [reflexivity | simpl; lia].
    + exists []. simpl. rewrite app_nil_r. auto.
  - destruct (in_flight p); [discriminate|]. intros [= <-].
    destruct r; simpl.
    + eexists. split; [reflexivity | simpl; lia].
    + exists []. simpl. rewrite app_nil_r. auto.
Qed.

Lemma run_appends (es : list Event) (u u' : UI) :
  run es u = Some u' ->
  exists more, messages (page u') = (messages (page u) ++ more)%list.
Proof.
  revert u. induction es as [|e es IH]; simpl; intros u Hrun.
  - injection Hrun as <-. exists []. now rewrite app_nil_r.
  - destruct (dispatch e u) as [u1|] eqn:E; [|discriminate].
    destruct (dispatch_appends e u u1 E) as (m1 & H1 & _).
    destruct (IH u1 Hrun) as (m2 & H2).
    exists (m1 ++ m2)%list. now rewrite H2, H1, app_assoc.
Qed.

Lemma dispatch_accounted (e : Event) (u u' : UI) :
  dispatch e u = Some u' ->
  IndexView.accounted (page u) -> IndexView.accounted (page u').
Proof.
  unfold IndexView.accounted. destruct u as [d p].
  destruct e as [v| |r]; simpl.
  - intros [= <-]. auto.
  - unfold ChatInput.handleSubmit.
    destruct (truthy (trim d) && _); intros [= <-]; simpl; [|auto].
    rewrite sent_app, answered_app. simpl. lia.
  - destruct (in_flight p) as [|n] eqn:En; [discriminate|].
    intros [= <-]. destruct r; simpl; rewrite En; simpl.
    + rewrite sent_app, answered_app. simpl. lia.
    + rewrite length_app. simpl. lia.
Qed.

Lemma reachable_accounted (u : UI) :
  reachable u -> IndexView.accounted (page u).
Proof.
  induction 1 as [|u u' _ IH [e He]].
  - reflexivity.
  - eapply dispatch_accounted; eassumption.
Qed.

(** X19. The conversation log is append-only: whatever events occur, the
    log before is an initial segment of the log after; no entry is ever
    edited, reordered or removed. *)
Theorem log_is_append_only (es : list Event) (u u' : UI) :
  run es u = Some u' ->
  exists more, messages (page u') = (messages (page u) ++ more)%list.
Proof. apply run_appends. Qed.

Lemma log_is_append_only_witness :
  exists more,
    messages (page Sample.busy) = (messages (page initial) ++ more)%list.
Proof.
  apply (log_is_append_only [Change "hello"; Submit; Change "again"]
           initial Sample.busy).
  reflexivity.
Defined.

(** X20. In every state the page can reach, each message of the user is
    accounted for: the number of user entries in the log equals the number
    of assistant entries plus the number of error toasts plus the number of
    sends in flight.  No message is answered twice and none is dropped
    silently. *)
Theorem every_message_is_accounted_for (u : UI) :
  reachable u ->
  IndexView.sent (messages (page u))
  = (IndexView.answered (messages (page u)) + length (toasts (page u))
     + in_flight (page u))%nat.
Proof. apply reachable_accounted. Qed.

Lemma every_message_is_accounted_for_witness :
  IndexView.sent (messages (page Sample.busy))
  = (IndexView.answered (messages (page Sample.busy))
     + length (toasts (page Sample.busy))
     + in_flight (page Sample.busy))%nat.
Proof.
  apply (every_message_is_accounted_for Sample.busy).
  apply (run_reachable [Change "hello"; Submit; Change "again"] initial);
    [apply reachable_initial | reflexivity].
Defined.

Lemma dispatch_well_trimmed (e : Event) (u u' : UI) :
  dispatch e u = Some u' ->
  Forall IndexView.well_trimmed (messages (page u)) ->
  Forall IndexView.well_trimmed (messages (page u')).
Proof.
  destruct u as [d p]. destruct e as [v| |r]; simpl.
  - intros [= <-]. auto.
  - unfold ChatInput.handleSubmit.
    destruct (truthy (trim d)) eqn:E; simpl;
      destruct (isLoading p); simpl; intros [= <-]; simpl; auto.
    intros H. apply Forall_app. split; [exact H|].
    constructor; [|constructor].
    intros _. simpl. split.
    + intros H0. rewrite H0 in E. discriminate.
    + apply trim_idempotent.
  - destruct (in_flight p); [discriminate|]. intros [= <-].
    destruct r; simpl; auto.
    intros H. apply Forall_app. split; [exact H|].
    constructor; [|constructor]. intros Hu. discriminate Hu.
Qed.

(** X21. In every state the page can reach, every user entry of the log
    is non-empty and has no white space at either end: the page stores
    what the input box trimmed, never the raw draft. *)
Theorem user_entries_are_trimmed (u : UI) (m : Message) :
  reachable u ->
  In m (messages (page u)) ->
  role m = user ->
  content m <> "" /\ trim (content m) = content m.
Proof.
  intros Hr Hin Hrole.
  assert (H : Forall IndexView.well_trimmed (messages (page u))).
  { clear Hin. induction Hr as [|u u' _ IH [e He]].
    - constructor.
    - eapply dispatch_well_trimmed; eassumption. }
  rewrite Forall_forall in H. apply list_elem_of_In in Hin.
  apply (H m Hin). now rewrite Hrole.
Qed.

Lemma user_entries_are_trimmed_witness :
  content {| role := user; content := "hello" |} <> ""
  /\ trim (content {| role := user; content := "hello" |})
     = content {| role := user; content := "hello" |}.
Proof.
  apply (user_entries_are_trimmed Sample.busy).
  - apply (run_reachable [Change "  hello "; Submit; Change "again"] initial);
      [apply reachable_initial | reflexivity].
  - simpl. left. reflexivity.
  - reflexivity.
Defined.

(** X22. What the page shows follows the conversation: in every state it
    can reach, the typing indicator is shown exactly while a send is
    outstanding (the welcome screen never hides it); and once the welcome
    screen has given way to the log, no later event brings it back. *)
Theorem welcome_and_typing_indicator (u : UI) :
  reachable u ->
  IndexView.showsTyping (page u) = isLoading (page u)
  /\ (forall es u', run es u = Some u' ->
        IndexView.showsWelcome (page u) = false ->
        IndexView.showsWelcome (page u') = false).
Proof.
  intros Hr. split.
  - pose proof (reachable_flag_counts u Hr) as Hf.
    pose proof (reachable_accounted u Hr) as Ha.
    unfold flag_counts in Hf. unfold IndexView.accounted in Ha.
    unfold IndexView.showsTyping, IndexView.showsWelcome.
    destruct (isLoading (page u)); [|now rewrite andb_false_r].
    destruct (messages (page u)); simpl in *; [lia | reflexivity].
  - intros es u' Hrun. unfold IndexView.showsWelcome.
    destruct (run_appends es u u' Hrun) as (more & ->).
    destruct (messages (page u)); simpl; [discriminate | reflexivity].
Qed.

Lemma welcome_and_typing_indicator_witness :
  IndexView.showsTyping (page Sample.busy) = true.
Proof.
  destruct (welcome_and_typing_indicator Sample.busy) as [H _].
  - apply (run_reachable [Change "hello"; Submit; Change "again"] initial);
      [apply reachable_initial | reflexivity].
  - rewrite H. reflexivity.
Defined.

(** X23. In every state the page can reach, a log that is not empty opens
    with a message of the user: no reply precedes the first question. *)
Theorem conversation_opens_with_user (u : UI) (m : Message) :
  reachable u ->
  head (messages (page u)) = Some m ->
  role m = user.
Proof.
  intros Hr. revert m. induction Hr as [|u u' Hu IH [e He]]; intros m.
  - discriminate.
  - pose proof (reachable_accounted u Hu) as Ha.
    unfold IndexView.accounted in Ha.
    destruct u as [d p]. destruct e as [v| |r]; simpl in *.
    + injection He as <-. apply IH.
    + unfold ChatInput.handleSubmit in He.
      destruct (truthy (trim d) && _); injection He as <-; simpl;
        [|apply IH].
      destruct (messages p) as [|m0 l]; simpl.
      * now intros [= <-].
      * intros [= <-]. now apply IH.
    + destruct (in_flight p) as [|n] eqn:En; [discriminate|].
      injection He as <-. destruct r; simpl; [|apply IH].
      destruct (messages p) as [|m0 l]; simpl in *; [lia|].
      intros [= <-]. now apply IH.
Qed.

Lemma conversation_opens_with_user_witness :
  role {| role := user; content := "hello" |} = user.
Proof.
  apply (conversation_opens_with_user Sample.busy).
  - apply (run_reachable [Change "hello"; Submit; Change "again"] initial);
      [apply reachable_initial | reflexivity].
  - reflexivity.
Defined.

(** ** The login page and the header *)

(** X24. A granted login takes the user in: [Login.handleSubmit] leaves
    the router at ["/"], shows no toast, ends with the busy flag down, and
    the provider holds the granted token and the username typed in. *)
Theorem granted_login_navigates_home
    (env : option string)
    (backend : Request -> FetchResult AuthContext.TokenResponse)
    (f : Login.Form) (a : App.Shell)
    (r : Response AuthContext.TokenResponse) (t : string) :
  (forall req, backend req = Responds r) ->
  ok r = true ->
  parsed r = Some {| AuthContext.access_token := t |} ->
  App.location (snd (Login.handleSubmit env backend f a)) = "/"
  /\ App.toasts (snd (Login.handleSubmit env backend f a)) = App.toasts a
  /\ Login.isLoading (fst (Login.handleSubmit env backend f a)) = false
  /\ token (App.world (snd (Login.handleSubmit env backend f a))) = Some t
  /\ username (App.world (snd (Login.handleSubmit env backend f a)))
     = Some (Login.username f).
Proof.
  intros Hb Hok Hp.
  unfold Login.handleSubmit, App.within, settles, exec. simpl.
  rewrite login_eq, Hb, Hok, Hp. simpl. auto.
Qed.

Lemma granted_login_navigates_home_witness :
  App.location (snd (Login.handleSubmit None
                       (Sample.always (Sample.grants "t0k3n"))
                       Sample.credentials Sample.at_login)) = "/".
Proof.
  apply (granted_login_navigates_home None
           (Sample.always (Sample.grants "t0k3n")) Sample.credentials
           Sample.at_login (Sample.grants "t0k3n") "t0k3n"); reflexivity.
Defined.

(** X25. A login that rejects, for whatever reason, keeps the user on
    the page: the router does not move, exactly one toast is added, titled
    "Authentication Failed" and describing the failure by the message of
    the error thrown, and the form ends with the busy flag down and the
    credentials typed in kept. *)
Theorem failed_login_stays_and_tells
    (env : option string)
    (backend : Request -> FetchResult AuthContext.TokenResponse)
    (f : Login.Form) (a : App.Shell) (e : Exn) :
  settles (AuthContext.login env backend (Login.username f)
             (Login.password f)) (App.world a) = Rejected e ->
  App.location (snd (Login.handleSubmit env backend f a)) = App.location a
  /\ App.toasts (snd (Login.handleSubmit env backend f a))
     = (App.toasts a ++
          [ {| title := "Authentication Failed";
               description := Login.message e;
               variant := "destructive" |} ])%list
  /\ fst (Login.handleSubmit env backend f a)
     = Login.setIsLoading false f.
Proof.
  unfold Login.handleSubmit, App.within, settles. simpl.
  destruct (AuthContext.login env backend (Login.username f)
              (Login.password f) (App.world a)) as [w' [v|e']]; simpl.
  - discriminate.
  - intros [= <-]. repeat split.
    destruct e'; reflexivity.
Qed.

Lemma failed_login_stays_and_tells_witness :
  App.toasts (snd (Login.handleSubmit None (Sample.always Sample.denies)
                     Sample.credentials Sample.at_login))
  = [ {| title := "Authentication Failed";
         description := "Invalid username or password";
         variant := "destructive" |} ].
Proof.
  apply (failed_login_stays_and_tells None (Sample.always Sample.denies)
           Sample.credentials Sample.at_login AuthenticationFailed).
  reflexivity.
Defined.

(** X26. Submitting the login page, whatever comes of it, and then
    logging out from the header ends on the login page with nobody logged
    in: the router is at ["/login"], both cells are [null], both session
    keys are gone from storage, and every other key is as it was before
    logging in. *)
Theorem login_then_logout
    (env : option string)
    (backend : Request -> FetchResult AuthContext.TokenResponse)
    (f : Login.Form) (a : App.Shell) :
  let a' := Header.handleLogout (snd (Login.handleSubmit env backend f a)) in
  App.location a' = "/login"
  /\ AuthContext.mounted (App.world a')
  /\ localStorage (App.world a') !! "access_token" = None
  /\ localStorage (App.world a') !! "username" = None
  /\ (forall k : string, k <> "access_token" -> k <> "username" ->
        localStorage (App.world a') !! k
        = localStorage (App.world a) !! k).
Proof.
  unfold Header.handleLogout, Login.handleSubmit, App.within, settles, exec.
  simpl. rewrite login_eq.
  assert (Hdel : forall (m : gmap string string),
            delete "username" (delete "access_token" m) !! "access_token"
            = None
            /\ delete "username" (delete "access_token" m) !! "username"
               = None).
  { intros m. rewrite lookup_delete_ne by discriminate.
    now rewrite !lookup_delete_eq. }
  destruct (backend _) as [r|]; simpl;
    [destruct (ok r); simpl; [destruct (parsed r); simpl|]|];
    unfold AuthContext.logout, bind; simpl;
    (split; [reflexivity|]); (split; [split; reflexivity|]);
    (split; [apply Hdel|]); (split; [apply Hdel|]);
    intros k Ht Hu; rewrite !lookup_delete_ne by congruence;
    rewrite ?lookup_insert_ne by congruence; reflexivity.
Qed.
